(** * QueryAutoRefresh: the SQL Lab query poller

    A shallow embedding of
    [superset/assets/src/SqlLab/components/QueryAutoRefresh.jsx]
    and the properties of its polling loop.

    The component is a React class.  Its methods are embedded as functions
    on a [World]: the fields of the instance ([this.props], [this.state],
    [this.timer]) together with the part of the JavaScript runtime the
    methods talk to (the timers armed by [setTimeout], the requests made
    with [SupersetClient.get] whose promise has not settled, and the log of
    the calls that leave the component). *)

From stdpp Require Import base decidable option list strings gmap fin_maps.
From Stdlib Require Import ZArith Lia.

Local Open Scope string_scope.
Local Open Scope list_scope.
Local Open Scope Z_scope.

(** ** Constants (lines 27-31) *)

Definition QUERY_UPDATE_FREQ : Z := 500.
Definition QUERY_UPDATE_FREQ_MAX : Z := 5000.
Definition QUERY_UPDATE_BUFFER_MS : Z := 5000.
Definition MAX_QUERY_AGE_TO_POLL : Z := 21600000.
Definition QUERY_TIMEOUT_LIMIT : Z := 10000.

(** ** Data *)

(** The fields of a query record that the component reads.  Times are
    milliseconds since the epoch. *)
Record Query : Type := mkQuery {
  sqlEditorId : string;
  state : string;
  startDttm : Z
}.

(** [this.props].  [queries] is the object mapping a query id to its
    record; [actions] is represented by the calls it receives, which are
    logged in the world. *)
Record Props : Type := mkProps {
  offline : bool;
  queries : gmap string Query;
  queryEditorId : string;
  queriesLastUpdate : Z
}.

(** ** JavaScript helpers *)

(** [Array.prototype.indexOf]: the first index holding [x], or -1. *)
Fixpoint indexOf_from (i : Z) (xs : list string) (x : string) : Z :=
  match xs with
  | [] => -1
  | y :: ys => if bool_decide (y = x) then i else indexOf_from (i + 1) ys x
  end.

Definition indexOf (xs : list string) (x : string) : Z := indexOf_from 0 xs x.

(** [Object.values] and [Object.keys].  The order of the entries is the
    order of the keys here and the insertion order in JavaScript; the
    component only uses them through [some] and [length]. *)
Definition Object_values {A} (o : gmap string A) : list A := (map_to_list o).*2.
Definition Object_keys {A} (o : gmap string A) : list string := (map_to_list o).*1.

(** [Array.prototype.some]. *)
Definition some {A} (f : A → bool) (xs : list A) : bool := existsb f xs.

(** ** shouldCheckForQueries (lines 54-72)

    [now] stands for [new Date().getTime()]. *)

Definition running_states : list string :=
  ["running"; "started"; "pending"; "fetching"].

Definition isQueryRunning (q : Query) : bool :=
  0 <=? indexOf running_states (state q).

(** The callback given to [some]. *)
Definition active (now : Z) (q : Query) : bool :=
  isQueryRunning q && (now - startDttm q <? MAX_QUERY_AGE_TO_POLL).

Definition editorQueries (p : Props) : list Query :=
  filter (λ q, sqlEditorId q = queryEditorId p) (Object_values (queries p)).

Definition shouldCheckForQueries (p : Props) (now : Z) : bool :=
  some (active now) (editorQueries p).

(** ** The instance and the runtime *)

(** Where the instance is in its React lifecycle. *)
Inductive Phase : Type := Constructed | Mounted | Unmounted.

(** A callback armed by
    [setTimeout(this.stopwatch.bind(this, retry_count), delay)] that has
    neither run nor been cleared.  Handles are positive integers, as in a
    browser, so a handle stored in [this.timer] is truthy. *)
Record Timer : Type := mkTimer {
  timer_id : nat;
  timer_delay : Z;
  timer_retry_count : Z
}.

(** A [SupersetClient.get] whose promise has not settled:
    the endpoint is [/superset/queries/<since>], and [retry_count] is the
    variable of the [stopwatch] call that the [finally] handler closes
    over. *)
Record Request : Type := mkRequest {
  request_id : nat;
  since : Z;
  timeout : Z;
  retry_count : Z
}.

(** How a request settles: [then] receives the parsed body, [catch] runs
    on a network error and on a timeout alike. *)
Inductive Outcome : Type :=
  | Resolved (json : gmap string Query)
  | Rejected.

(** The calls that leave the component, in the order they are made.  Of
    the [console.log] lines only the one of [startTimer] is kept: it is
    the one reader of the local [delay]. *)
Inductive Call : Type :=
  | SetTimeout (id : nat) (delay : Z) (retry : Z)
  | ClearTimeout (id : nat)
  | Get (since_ : Z) (timeout_ : Z)
  | RefreshQueries (json : gmap string Query)
  | SetUserOffline (b : bool)
  | LogDelay (retry : Z) (delay : Z).

Record World : Type := mkWorld {
  props : Props;                (* this.props *)
  state_offline : bool;         (* this.state.offline *)
  timer : option nat;           (* this.timer; None is undefined or null *)
  phase : Phase;
  timers : list Timer;          (* armed callbacks *)
  requests : list Request;      (* requests in flight *)
  next_timer : nat;
  next_request : nat;
  calls : list Call
}.

Definition set_props (p : Props) (w : World) : World :=
  mkWorld p (state_offline w) (timer w) (phase w) (timers w) (requests w)
          (next_timer w) (next_request w) (calls w).

Definition set_state_offline (b : bool) (w : World) : World :=
  mkWorld (props w) b (timer w) (phase w) (timers w) (requests w)
          (next_timer w) (next_request w) (calls w).

Definition set_timer (t : option nat) (w : World) : World :=
  mkWorld (props w) (state_offline w) t (phase w) (timers w) (requests w)
          (next_timer w) (next_request w) (calls w).

Definition set_phase (ph : Phase) (w : World) : World :=
  mkWorld (props w) (state_offline w) (timer w) ph (timers w) (requests w)
          (next_timer w) (next_request w) (calls w).

Definition set_timers (ts : list Timer) (w : World) : World :=
  mkWorld (props w) (state_offline w) (timer w) (phase w) ts (requests w)
          (next_timer w) (next_request w) (calls w).

Definition set_requests (rs : list Request) (w : World) : World :=
  mkWorld (props w) (state_offline w) (timer w) (phase w) (timers w) rs
          (next_timer w) (next_request w) (calls w).

Definition call (c : Call) (w : World) : World :=
  mkWorld (props w) (state_offline w) (timer w) (phase w) (timers w)
          (requests w) (next_timer w) (next_request w) (calls w ++ [c]).

(** [setTimeout]: arms a callback and returns its handle. *)
Definition setTimeout (retry : Z) (delay : Z) (w : World) : nat * World :=
  let id := next_timer w in
  (id,
   call (SetTimeout id delay retry)
     (mkWorld (props w) (state_offline w) (timer w) (phase w)
              (timers w ++ [mkTimer id delay retry]) (requests w)
              (S id) (next_request w) (calls w))).

(** [clearTimeout]: disarms the callback of that handle, if it is still
    armed. *)
Definition clearTimeout (id : nat) (w : World) : World :=
  call (ClearTimeout id)
    (set_timers (filter (λ t, timer_id t ≠ id) (timers w)) w).

(** [SupersetClient.get({ endpoint, timeout })] *)
Definition SupersetClient_get (since_ timeout_ retry : Z) (w : World) : World :=
  let id := next_request w in
  call (Get since_ timeout_)
    (mkWorld (props w) (state_offline w) (timer w) (phase w) (timers w)
             (requests w ++ [mkRequest id since_ timeout_ retry])
             (next_timer w) (S id) (calls w)).

(** ** The methods *)

(** The local [delay] of [startTimer] (line 83). *)
Definition startTimer_delay (retry : Z) : Z :=
  Z.min (QUERY_UPDATE_FREQ + retry * 50) QUERY_UPDATE_FREQ_MAX.

(** [startTimer] (lines 73-87).  The callback is armed with
    [QUERY_UPDATE_FREQ], the second argument of [setTimeout] on line 85;
    [delay] only reaches the log. *)
Definition startTimer (retry : Z) (w : World) : World :=
  match timer w with
  | None =>
      let delay := startTimer_delay retry in
      let w1 := call (LogDelay retry delay) w in
      let '(id, w2) := setTimeout retry QUERY_UPDATE_FREQ w1 in
      set_timer (Some id) w2
  | Some _ => w
  end.

(** [stopTimer] (lines 88-92) *)
Definition stopTimer (w : World) : World :=
  let w1 := match timer w with
            | Some id => clearTimeout id w
            | None => w
            end in
  set_timer None w1.

(** [componentWillMount] (lines 40-43) *)
Definition componentWillMount (now : Z) (w : World) : World :=
  if shouldCheckForQueries (props w) now then startTimer 0 w else w.

(** [componentDidUpdate] (lines 44-50) *)
Definition componentDidUpdate (now : Z) (prevProps : Props) (w : World) : World :=
  let w1 := if negb (bool_decide (offline prevProps = state_offline w))
            then call (SetUserOffline (state_offline w)) w
            else w in
  if shouldCheckForQueries (props w1) now then startTimer 0 w1 else w1.

(** [componentWillUnmount] (lines 51-53) *)
Definition componentWillUnmount (w : World) : World := stopTimer w.

(** [this.setState({ offline: b })].  The component calls it from a timer
    callback and from promise handlers, where React 16 applies the update
    at once: a [PureComponent] whose state is unchanged is not rendered
    again; otherwise it is, with the same props, and [componentDidUpdate]
    runs.  On an instance that is not mounted the call does nothing. *)
Definition setState (now : Z) (b : bool) (w : World) : World :=
  match phase w with
  | Mounted =>
      if bool_decide (state_offline w = b) then w
      else componentDidUpdate now (props w) (set_state_offline b w)
  | _ => w
  end.

(** [stopwatch] (lines 93-117), up to the call of [SupersetClient.get]. *)
Definition stopwatch (now : Z) (retry : Z) (w : World) : World :=
  if shouldCheckForQueries (props w) now then
    SupersetClient_get (queriesLastUpdate (props w) - QUERY_UPDATE_BUFFER_MS)
                       QUERY_TIMEOUT_LIMIT retry w
  else
    setState now false (stopTimer w).

(** The handlers of the promise (lines 101-112). *)

(** [then] (lines 101-107) *)
Definition on_then (now : Z) (json : gmap string Query) (w : World) : World :=
  let w1 := if 0 <? Z.of_nat (length (Object_keys json))
            then call (RefreshQueries json) w
            else w in
  setState now false w1.

(** [catch] (lines 107-109) *)
Definition on_catch (now : Z) (w : World) : World := setState now true w.

(** [finally] (lines 109-112); [retry] is [retry_count] before the
    increment. *)
Definition on_finally (retry : Z) (w : World) : World :=
  startTimer (retry + 1) (stopTimer w).

Definition settle (now : Z) (o : Outcome) (r : Request) (w : World) : World :=
  let w1 := match o with
            | Resolved json => on_then now json w
            | Rejected => on_catch now w
            end in
  on_finally (retry_count r) w1.

(** ** Events

    What the runtime can do to the instance.  An event that cannot happen
    in the current world (a second mount, an update of an instance that is
    not mounted, a handle or request that is not pending) leaves it as it
    is.  Each event carries the clock reading of its handler.  A new set of
    props always counts as a change: whether two [queries] objects are the
    same reference is not visible here. *)
Inductive Event : Type :=
  | EvMount (now : Z)
  | EvUpdate (newProps : Props) (now : Z)
  | EvUnmount
  | EvTimer (id : nat) (now : Z)
  | EvSettle (id : nat) (o : Outcome) (now : Z).

Definition find_timer (id : nat) (w : World) : option Timer :=
  List.find (λ t, bool_decide (timer_id t = id)) (timers w).

Definition find_request (id : nat) (w : World) : option Request :=
  List.find (λ r, bool_decide (request_id r = id)) (requests w).

Definition step (w : World) (e : Event) : World :=
  match e with
  | EvMount now =>
      match phase w with
      | Constructed => set_phase Mounted (componentWillMount now w)
      | _ => w
      end
  | EvUpdate newProps now =>
      match phase w with
      | Mounted => componentDidUpdate now (props w) (set_props newProps w)
      | _ => w
      end
  | EvUnmount =>
      match phase w with
      | Mounted => set_phase Unmounted (componentWillUnmount w)
      | _ => w
      end
  | EvTimer id now =>
      match find_timer id w with
      | Some t =>
          stopwatch now (timer_retry_count t)
            (set_timers (filter (λ t', timer_id t' ≠ id) (timers w)) w)
      | None => w
      end
  | EvSettle id o now =>
      match find_request id w with
      | Some r =>
          settle now o r
            (set_requests (filter (λ r', request_id r' ≠ id) (requests w)) w)
      | None => w
      end
  end.

Definition run (w : World) (es : list Event) : World := foldl step w es.

(** The constructor (lines 34-39). *)
Definition init (p : Props) : World :=
  mkWorld p (offline p) None Constructed [] [] 1 1 [].

(** ** Observations *)

(** The props with another collection of queries. *)
Definition with_queries (qs : gmap string Query) (p : Props) : Props :=
  mkProps (offline p) qs (queryEditorId p) (queriesLastUpdate p).

Definition is_store_call (c : Call) : bool :=
  match c with RefreshQueries _ | SetUserOffline _ => true | _ => false end.

Definition is_SetTimeout (c : Call) : bool :=
  match c with SetTimeout _ _ _ => true | _ => false end.

Definition is_Get (c : Call) : bool :=
  match c with Get _ _ => true | _ => false end.

(** The store actions dispatched so far. *)
Definition store_calls (w : World) : list Call := List.filter is_store_call (calls w).

(** The timers created so far. *)
Definition timer_calls (w : World) : list Call := List.filter is_SetTimeout (calls w).

(** The requests issued so far. *)
Definition http_calls (w : World) : list Call := List.filter is_Get (calls w).

(** The arguments of the [setUserOffline] dispatches so far. *)
Definition offline_dispatches (w : World) : list bool :=
  omap (λ c, match c with SetUserOffline b => Some b | _ => None end) (calls w).

(** The delays given to [setTimeout] so far. *)
Definition observed_delays (w : World) : list Z :=
  omap (λ c, match c with SetTimeout _ d _ => Some d | _ => None end) (calls w).

(** The retry counts received by [startTimer] so far and the [delay] it
    computed for each, as logged on line 84. *)
Definition calls_of_startTimer (w : World) : list (Z * Z) :=
  omap (λ c, match c with LogDelay n d => Some (n, d) | _ => None end) (calls w).

(** ** Runs *)

(** The query-set-changed events of a sequence of new props and clock
    readings. *)
Definition updates (us : list (Props * Z)) : list Event :=
  map (λ u, EvUpdate u.1 u.2) us.

(** The clock reading an event hands to its handler. *)
Definition event_time (e : Event) : option Z :=
  match e with
  | EvMount now | EvUpdate _ now | EvTimer _ now | EvSettle _ _ now => Some now
  | EvUnmount => None
  end.

(** A run in which the polling decision is negative whenever a handler
    can take it: at each event, on the props the instance then has and at
    the clock reading of the event. *)
Fixpoint never_active (w : World) (es : list Event) : bool :=
  match es with
  | [] => true
  | e :: es' =>
      let w' := step w e in
      match event_time e with
      | Some now => negb (shouldCheckForQueries (props w') now)
      | None => true
      end && never_active w' es'
  end.

(** A world in which nothing was ever armed or requested. *)
Record idle (w : World) : Prop := mkIdle {
  idle_timers : timers w = [];
  idle_requests : requests w = [];
  idle_timer : timer w = None;
  idle_timer_calls : timer_calls w = [];
  idle_http_calls : http_calls w = []
}.

(** ** Invariants *)

(** What holds of every world the instance can reach: the one armed
    callback, if any, is the one [this.timer] names; a request in flight
    excludes an armed callback; and while the instance is mounted a
    request in flight keeps the handle of the callback that issued it in
    [this.timer]. *)
Record single_flight (w : World) : Prop := mkSingleFlight {
  sf_timers :
    timers w = [] ∨ ∃ t, timers w = [t] ∧ timer w = Some (timer_id t);
  sf_requests : (length (requests w) ≤ 1)%nat;
  sf_exclusive : requests w ≠ [] → timers w = [];
  sf_handle : phase w = Mounted → requests w ≠ [] → timer w ≠ None;
  sf_constructed : phase w = Constructed → timer w = None ∧ requests w = []
}.

(** ** Further observations *)

(** The payloads given to [refreshQueries] so far. *)
Definition refresh_payloads (w : World) : list (gmap string Query) :=
  omap (λ c, match c with RefreshQueries json => Some json | _ => None end) (calls w).

(** [this.timer] names an armed callback or the callback whose request is
    in flight: a handle never outlives its cycle. *)
Definition handle_live (w : World) : Prop :=
  timer w = None ∨ timers w ≠ [] ∨ requests w ≠ [].

(** A poll cycle is outstanding: a callback is armed or a request is in
    flight. *)
Definition outstanding (w : World) : Prop :=
  timers w ≠ [] ∨ requests w ≠ [].

(** Every request was issued by a callback, and every callback was armed
    by [setTimeout]. *)
Definition requests_accounted (w : World) : Prop :=
  (length (http_calls w) + length (timers w) ≤ length (timer_calls w))%nat.

(** Every [refreshQueries] answers a request of its own. *)
Definition refreshes_accounted (w : World) : Prop :=
  (length (refresh_payloads w) + length (requests w) ≤ length (http_calls w))%nat.

(** The retry counts carried by callbacks and requests are not negative. *)
Definition retry_counts_nonneg (w : World) : Prop :=
  Forall (λ t, 0 ≤ timer_retry_count t) (timers w) ∧
  Forall (λ r, 0 ≤ retry_count r) (requests w).

(** The shapes of the calls the component makes: every callback is armed
    with [QUERY_UPDATE_FREQ], every request has the timeout
    [QUERY_TIMEOUT_LIMIT], every logged delay is the one computed from its
    retry count, and no retry count is negative. *)
Definition well_formed_call (c : Call) : Prop :=
  match c with
  | SetTimeout _ delay retry => delay = QUERY_UPDATE_FREQ ∧ 0 ≤ retry
  | Get _ timeout_ => timeout_ = QUERY_TIMEOUT_LIMIT
  | LogDelay retry delay => 0 ≤ retry ∧ delay = startTimer_delay retry
  | ClearTimeout _ | RefreshQueries _ | SetUserOffline _ => True
  end.

Definition well_formed (w : World) : Prop :=
  Forall well_formed_call (calls w) ∧ retry_counts_nonneg w.

(** What the four methods that only deal with the timer and the flag do to
    the counts: they issue no request, and they arm as many callbacks as
    they create. *)
Record timer_only (w w' : World) : Prop := mkTimerOnly {
  to_http : http_calls w' = http_calls w;
  to_requests : requests w' = requests w;
  to_refresh : refresh_payloads w' = refresh_payloads w;
  to_accounted : requests_accounted w → requests_accounted w'
}.

(** ** Scenarios *)

(** One query of the editor, in the given state, started at time 1000. *)
Definition one_query (off : bool) (st : string) : Props :=
  mkProps off {[ "q1" := mkQuery "editor1" st 1000 ]} "editor1" 900.

(** Scenario A: mounted on a running query, the first poll resolves with
    an empty object. *)
Definition scenario_A : list Event :=
  [EvMount 1000; EvTimer 1 1500; EvSettle 1 (Resolved ∅) 1600].

(** Scenario B: the request times out three times in a row. *)
Definition scenario_B : list Event :=
  [EvMount 1000;
   EvTimer 1 1500; EvSettle 1 Rejected 11500;
   EvTimer 2 12000; EvSettle 2 Rejected 22000;
   EvTimer 3 22500; EvSettle 3 Rejected 32500].

(** The response that reports the query finished. *)
Definition finished : gmap string Query :=
  {[ "q1" := mkQuery "editor1" "success" 1000 ]}.

(** * Properties *)

#[global] Arguments shouldCheckForQueries : simpl never.
#[global] Arguments startTimer : simpl never.
#[global] Arguments stopTimer : simpl never.
#[global] Arguments setState : simpl never.
#[global] Arguments componentDidUpdate : simpl never.
#[global] Arguments componentWillMount : simpl never.
#[global] Arguments stopwatch : simpl never.
#[global] Arguments settle : simpl never.
#[global] Arguments on_then : simpl never.
#[global] Arguments on_catch : simpl never.
#[global] Arguments on_finally : simpl never.

(** ** The active-query predicate *)

Lemma isQueryRunning_iff (q : Query) :
  isQueryRunning q = true ↔
  state q = "running" ∨ state q = "started" ∨
  state q = "pending" ∨ state q = "fetching".
Proof.
  unfold isQueryRunning, indexOf, running_states; cbn [indexOf_from].
  repeat case_bool_decide; cbn; split; intros ?; try done;
    try (by intuition congruence); naive_solver.
Qed.

Lemma shouldCheckForQueries_iff (p : Props) (now : Z) :
  shouldCheckForQueries p now = true ↔
  ∃ k q, queries p !! k = Some q ∧
         sqlEditorId q = queryEditorId p ∧ active now q = true.
Proof.
  unfold shouldCheckForQueries, some, editorQueries, Object_values.
  rewrite existsb_exists. split.
  - intros (q & Hin & Hact).
    apply list_elem_of_In, list_elem_of_filter in Hin as [Hed Hin].
    apply list_elem_of_fmap in Hin as ([k q'] & -> & Hin).
    apply elem_of_map_to_list in Hin. by exists k, q'.
  - intros (k & q & Hk & Hed & Hact). exists q. split; [|done].
    apply list_elem_of_In, list_elem_of_filter. split; [done|].
    apply list_elem_of_fmap. exists (k, q). split; [done|].
    by apply elem_of_map_to_list.
Qed.

Lemma shouldCheckForQueries_false_iff (p : Props) (now : Z) :
  shouldCheckForQueries p now = false ↔
  ∀ k q, queries p !! k = Some q →
         sqlEditorId q = queryEditorId p → active now q = false.
Proof.
  rewrite <-not_true_iff_false, shouldCheckForQueries_iff. split.
  - intros Hn k q Hk Hed. apply not_true_is_false. naive_solver.
  - intros Hall (k & q & Hk & Hed & Hact). rewrite (Hall k q) in Hact; done.
Qed.

(** C5.  A query record counts as active exactly when its state is one of
    running, started, pending, fetching and it started less than
    21600000 ms (six hours) before now; so a running record that started
    six hours ago or earlier is not active. *)
Theorem active_iff (now : Z) (q : Query) :
  (active now q = true ↔
     (state q = "running" ∨ state q = "started" ∨
      state q = "pending" ∨ state q = "fetching") ∧
     now - startDttm q < 21600000) ∧
  (state q = "running" → 21600000 ≤ now - startDttm q →
   active now q = false).
Proof.
  unfold active. rewrite andb_true_iff, isQueryRunning_iff, Z.ltb_lt.
  unfold MAX_QUERY_AGE_TO_POLL. split; [done|].
  intros _ Hold. apply andb_false_iff. right. apply Z.ltb_ge. done.
Qed.

Lemma active_iff_witness :
  active 21601000 (mkQuery "editor" "running" 1000) = false.
Proof.
  apply (proj2 (active_iff 21601000 (mkQuery "editor" "running" 1000)));
    [reflexivity | cbn; lia].
Defined.

(** C6.  A record of another editor never triggers or satisfies the
    predicate of the polling decision: storing it under any key gives the
    decision of the collection without that key, and a collection made of
    such records only gives a negative decision. *)
Theorem other_session_ignored (p : Props) (k : string) (q : Query) (now : Z) :
  sqlEditorId q ≠ queryEditorId p →
  shouldCheckForQueries (with_queries (<[k:=q]> (queries p)) p) now =
    shouldCheckForQueries (with_queries (delete k (queries p)) p) now ∧
  ((∀ k' q', queries p !! k' = Some q' → sqlEditorId q' ≠ queryEditorId p) →
   shouldCheckForQueries p now = false).
Proof.
  intros Hne. split.
  - apply eq_true_iff_eq. rewrite !shouldCheckForQueries_iff. cbn.
    split; intros (k' & q' & Hk & Hed & Hact); exists k', q'.
    + destruct (decide (k = k')) as [->|Hkk].
      * rewrite lookup_insert_eq in Hk. congruence.
      * rewrite lookup_insert_ne in Hk by done.
        rewrite lookup_delete_ne by done. done.
    + destruct (decide (k = k')) as [->|Hkk].
      * rewrite lookup_delete_eq in Hk. done.
      * rewrite lookup_delete_ne in Hk by done.
        rewrite lookup_insert_ne by done. done.
  - intros Hall. apply shouldCheckForQueries_false_iff.
    intros k' q' Hk Hed. by destruct (Hall k' q' Hk).
Qed.

Lemma other_session_ignored_witness :
  let p := mkProps false {[ "q1" := mkQuery "editor1" "success" 0 ]} "editor1" 0 in
  let q := mkQuery "editor2" "running" 1000 in
  shouldCheckForQueries (with_queries (<["q2":=q]> (queries p)) p) 2000 =
    shouldCheckForQueries (with_queries (delete "q2" (queries p)) p) 2000.
Proof.
  intros p q.
  apply (proj1 (other_session_ignored p "q2" q 2000 ltac:(done))).
Defined.

(** ** Single flight *)

Lemma filter_other_timer (t : Timer) (id : nat) :
  timer_id t = id → filter (λ t', timer_id t' ≠ id) [t] = [].
Proof. intros <-. rewrite filter_cons_False; [done | by intros Hn; apply Hn]. Qed.

Lemma single_flight_init (p : Props) : single_flight (init p).
Proof. split; cbn; auto with lia; try done. Qed.

Lemma startTimer_armed (n : Z) (w : World) :
  timer w ≠ None → startTimer n w = w.
Proof. unfold startTimer. by destruct (timer w). Qed.

Lemma startTimer_requests (n : Z) (w : World) :
  requests (startTimer n w) = requests w.
Proof. unfold startTimer. by destruct (timer w). Qed.

Lemma startTimer_phase (n : Z) (w : World) :
  phase (startTimer n w) = phase w.
Proof. unfold startTimer. by destruct (timer w). Qed.

Lemma startTimer_props (n : Z) (w : World) :
  props (startTimer n w) = props w.
Proof. unfold startTimer. by destruct (timer w). Qed.

Lemma startTimer_state_offline (n : Z) (w : World) :
  state_offline (startTimer n w) = state_offline w.
Proof. unfold startTimer. by destruct (timer w). Qed.

Lemma startTimer_single_flight (n : Z) (w : World) :
  single_flight w → requests w = [] → phase w ≠ Constructed →
  single_flight (startTimer n w).
Proof.
  intros Hw Hr Hph. unfold startTimer.
  destruct (timer w) eqn:Ht; [done|].
  destruct Hw as [[Hts|(t & _ & Ht')] Hrs Hex Hh Hc]; [|congruence].
  split; cbn; rewrite ?Hts, ?Hr; cbn; eauto with lia; done.
Qed.

Lemma mount_single_flight (now : Z) (w : World) :
  single_flight w → phase w = Constructed →
  single_flight (set_phase Mounted (componentWillMount now w)).
Proof.
  intros [Hts Hrs Hex Hh Hc] Hph. destruct (Hc Hph) as [Ht Hr].
  destruct Hts as [Hts|(t & _ & Ht')]; [|congruence].
  unfold componentWillMount, startTimer. rewrite Ht.
  destruct (shouldCheckForQueries _ _);
    split; cbn; rewrite ?Hts, ?Hr; cbn; eauto with lia; done.
Qed.

Lemma stopTimer_requests (w : World) : requests (stopTimer w) = requests w.
Proof. unfold stopTimer. by destruct (timer w). Qed.

Lemma stopTimer_phase (w : World) : phase (stopTimer w) = phase w.
Proof. unfold stopTimer. by destruct (timer w). Qed.

Lemma stopTimer_props (w : World) : props (stopTimer w) = props w.
Proof. unfold stopTimer. by destruct (timer w). Qed.

Lemma stopTimer_state_offline (w : World) :
  state_offline (stopTimer w) = state_offline w.
Proof. unfold stopTimer. by destruct (timer w). Qed.

Lemma stopTimer_timer (w : World) : timer (stopTimer w) = None.
Proof. done. Qed.

(** [stopTimer] leaves no callback armed in a world of the instance. *)
Lemma stopTimer_timers (w : World) :
  single_flight w → timers (stopTimer w) = [].
Proof.
  intros [[Hts|(t & Hts & Ht)] _ _ _ _]; unfold stopTimer.
  - destruct (timer w); cbn; by rewrite ?Hts.
  - rewrite Ht. cbn. rewrite Hts. by apply filter_other_timer.
Qed.

Lemma stopTimer_single_flight (w : World) :
  single_flight w → requests w = [] ∨ phase w = Unmounted →
  single_flight (stopTimer w).
Proof.
  intros Hw Hor. pose proof (stopTimer_timers w Hw) as Hts.
  destruct Hw as [_ Hrs Hex Hh Hc].
  split; rewrite ?stopTimer_requests, ?stopTimer_phase, ?Hts; auto.
  - intros Hph Hr. destruct Hor as [?|Hun]; [done | congruence].
  - intros Hph. by destruct (Hc Hph).
Qed.

Lemma unmount_single_flight (w : World) :
  single_flight w → single_flight (set_phase Unmounted (componentWillUnmount w)).
Proof.
  intros Hw. pose proof (stopTimer_timers w Hw) as Hts.
  destruct Hw as [_ Hrs _ _ _]. unfold componentWillUnmount.
  split; cbn; rewrite ?stopTimer_requests, ?Hts; auto; done.
Qed.

Lemma call_single_flight (c : Call) (w : World) :
  single_flight w → single_flight (call c w).
Proof. intros [? ? ? ? ?]. by split. Qed.

Lemma set_props_single_flight (p : Props) (w : World) :
  single_flight w → single_flight (set_props p w).
Proof. intros [? ? ? ? ?]. by split. Qed.

Lemma set_state_offline_single_flight (b : bool) (w : World) :
  single_flight w → single_flight (set_state_offline b w).
Proof. intros [? ? ? ? ?]. by split. Qed.

Lemma componentDidUpdate_requests (now : Z) (pp : Props) (w : World) :
  requests (componentDidUpdate now pp w) = requests w.
Proof.
  unfold componentDidUpdate.
  repeat case_match; rewrite ?startTimer_requests; done.
Qed.

Lemma componentDidUpdate_phase (now : Z) (pp : Props) (w : World) :
  phase (componentDidUpdate now pp w) = phase w.
Proof.
  unfold componentDidUpdate.
  repeat case_match; rewrite ?startTimer_phase; done.
Qed.

Lemma componentDidUpdate_props (now : Z) (pp : Props) (w : World) :
  props (componentDidUpdate now pp w) = props w.
Proof.
  unfold componentDidUpdate.
  repeat case_match; rewrite ?startTimer_props; done.
Qed.

Lemma componentDidUpdate_state_offline (now : Z) (pp : Props) (w : World) :
  state_offline (componentDidUpdate now pp w) = state_offline w.
Proof.
  unfold componentDidUpdate.
  repeat case_match; rewrite ?startTimer_state_offline; done.
Qed.

Lemma componentDidUpdate_single_flight (now : Z) (pp : Props) (w : World) :
  single_flight w → phase w = Mounted →
  single_flight (componentDidUpdate now pp w).
Proof.
  intros Hw Hph. unfold componentDidUpdate.
  set (w1 := if negb _ then _ else _).
  assert (single_flight w1 ∧ phase w1 = Mounted ∧
          requests w1 = requests w ∧ timer w1 = timer w) as (Hw1 & Hph1 & Hr1 & Ht1).
  { subst w1. case_match; auto using call_single_flight. }
  case_match; [|done].
  destruct (requests w1) as [|r rs] eqn:Hr.
  - apply startTimer_single_flight; [done..|congruence].
  - rewrite startTimer_armed; [done|].
    apply (sf_handle w1 Hw1 Hph1). by rewrite Hr.
Qed.

Lemma setState_requests (now : Z) (b : bool) (w : World) :
  requests (setState now b w) = requests w.
Proof.
  unfold setState. repeat case_match; rewrite ?componentDidUpdate_requests; done.
Qed.

Lemma setState_phase (now : Z) (b : bool) (w : World) :
  phase (setState now b w) = phase w.
Proof.
  unfold setState. repeat case_match; rewrite ?componentDidUpdate_phase; done.
Qed.

Lemma setState_props (now : Z) (b : bool) (w : World) :
  props (setState now b w) = props w.
Proof.
  unfold setState. repeat case_match; rewrite ?componentDidUpdate_props; done.
Qed.

Lemma setState_single_flight (now : Z) (b : bool) (w : World) :
  single_flight w → single_flight (setState now b w).
Proof.
  intros Hw. unfold setState. repeat case_match; try done.
  apply componentDidUpdate_single_flight; [|done].
  by apply set_state_offline_single_flight.
Qed.

(** A mounted instance ends [setState] with the flag it was given. *)
Lemma setState_state_offline (now : Z) (b : bool) (w : World) :
  phase w = Mounted → state_offline (setState now b w) = b.
Proof.
  intros Hph. unfold setState. rewrite Hph. case_bool_decide; [done|].
  by rewrite componentDidUpdate_state_offline.
Qed.

Lemma stopwatch_single_flight (now retry : Z) (w : World) :
  single_flight w → requests w = [] → timers w = [] → timer w ≠ None →
  single_flight (stopwatch now retry w).
Proof.
  intros Hw Hr Hts Ht. unfold stopwatch. case_match.
  - destruct Hw as [_ _ _ _ Hc].
    split; cbn; rewrite ?Hr, ?Hts; cbn; auto; try done.
    intros Hph. by destruct (Hc Hph).
  - apply setState_single_flight, stopTimer_single_flight; auto.
Qed.

Lemma handlers_single_flight (now : Z) (o : Outcome) (w : World) :
  let w1 := match o with
            | Resolved json => on_then now json w
            | Rejected => on_catch now w
            end in
  single_flight w →
  single_flight w1 ∧ requests w1 = requests w ∧ phase w1 = phase w ∧
  props w1 = props w.
Proof.
  intros w1 Hw. subst w1. unfold on_then, on_catch. destruct o as [json|].
  - rewrite setState_requests, setState_phase, setState_props.
    split; [apply setState_single_flight|]; case_match;
      auto using call_single_flight.
  - rewrite setState_requests, setState_phase, setState_props.
    auto using setState_single_flight.
Qed.

Lemma settle_single_flight (now : Z) (o : Outcome) (r : Request) (w : World) :
  single_flight w → requests w = [] → phase w ≠ Constructed →
  single_flight (settle now o r w).
Proof.
  intros Hw Hr Hph. unfold settle, on_finally.
  destruct (handlers_single_flight now o w Hw) as (Hw1 & Hr1 & Hph1 & _).
  apply startTimer_single_flight.
  - apply stopTimer_single_flight; [done|]. left. congruence.
  - rewrite stopTimer_requests. congruence.
  - rewrite stopTimer_phase. congruence.
Qed.

Lemma find_timer_Some (id : nat) (w : World) (t : Timer) :
  find_timer id w = Some t → t ∈ timers w ∧ timer_id t = id.
Proof.
  unfold find_timer. intros Hf. apply find_some in Hf as [Hin Hid].
  split; [by apply list_elem_of_In | by apply bool_decide_eq_true in Hid].
Qed.

Lemma find_request_Some (id : nat) (w : World) (r : Request) :
  find_request id w = Some r → r ∈ requests w ∧ request_id r = id.
Proof.
  unfold find_request. intros Hf. apply find_some in Hf as [Hin Hid].
  split; [by apply list_elem_of_In | by apply bool_decide_eq_true in Hid].
Qed.

(** Every step keeps the world single-flight. *)
Lemma step_single_flight (w : World) (e : Event) :
  single_flight w → single_flight (step w e).
Proof.
  intros Hw. destruct e as [now|p now| |id now|id o now]; cbn.
  - destruct (phase w) eqn:Hph; auto using mount_single_flight.
  - destruct (phase w) eqn:Hph; try done.
    apply componentDidUpdate_single_flight; [|done].
    by apply set_props_single_flight.
  - destruct (phase w) eqn:Hph; auto using unmount_single_flight.
  - destruct (find_timer id w) as [t|] eqn:Hf; [|done].
    apply find_timer_Some in Hf as [Hin Hid].
    pose proof Hw as [[Hts|(t' & Hts & Ht)] Hrs Hex Hh Hc];
      [rewrite Hts in Hin; by apply elem_of_nil in Hin|].
    rewrite Hts in Hin. apply list_elem_of_singleton in Hin as ->.
    assert (requests w = []) as Hr.
    { destruct (requests w); [done|]. rewrite Hex in Hts; done. }
    rewrite Hts, (filter_other_timer t' id Hid).
    apply stopwatch_single_flight; cbn; rewrite ?Hr, ?Ht; auto.
    split; cbn; rewrite ?Hr, ?Ht; auto; try done.
    intros Hph. pose proof (Hc Hph) as [? _]. congruence.
  - destruct (find_request id w) as [r|] eqn:Hf; [|done].
    apply find_request_Some in Hf as [Hin Hid].
    pose proof Hw as [Hts Hrs Hex Hh Hc].
    destruct (requests w) as [|r' [|r'' rs]] eqn:Hr;
      [by apply elem_of_nil in Hin| |cbn in Hrs; lia].
    apply list_elem_of_singleton in Hin as ->.
    assert (filter (λ r'0, request_id r'0 ≠ id) [r'] = []) as ->.
    { rewrite filter_cons_False; [done | by intros Hn; apply Hn]. }
    apply settle_single_flight; cbn; auto.
    + split; cbn; auto; try done.
      intros Hph. apply Hc in Hph as [_ ?]. congruence.
    + intros Hph. apply Hc in Hph as [_ ?]. congruence.
Qed.

Lemma run_single_flight (w : World) (es : list Event) :
  single_flight w → single_flight (run w es).
Proof.
  revert w. induction es as [|e es IH]; intros w Hw; cbn; [done|].
  apply IH. by apply step_single_flight.
Qed.

Lemma reachable_single_flight (p : Props) (es : list Event) :
  single_flight (run (init p) es).
Proof. apply run_single_flight, single_flight_init. Qed.

(** In a world with a cycle outstanding, [this.timer] of a mounted
    instance is set. *)
Lemma outstanding_armed (w : World) :
  single_flight w → phase w = Mounted →
  timers w ≠ [] ∨ requests w ≠ [] → timer w ≠ None.
Proof.
  intros [[Hts|(t & Hts & Ht)] _ _ Hh _] Hph [Hne|Hne]; auto; congruence.
Qed.

Lemma componentDidUpdate_armed (now : Z) (pp : Props) (w : World) :
  timer w ≠ None →
  componentDidUpdate now pp w =
    if negb (bool_decide (offline pp = state_offline w))
    then call (SetUserOffline (state_offline w)) w else w.
Proof.
  intros Ht. unfold componentDidUpdate.
  repeat case_match; rewrite ?startTimer_armed; done.
Qed.

Lemma update_outstanding (w : World) (p : Props) (now : Z) :
  single_flight w → timers w ≠ [] ∨ requests w ≠ [] →
  let w' := step w (EvUpdate p now) in
  timers w' = timers w ∧ requests w' = requests w ∧
  timer_calls w' = timer_calls w ∧ http_calls w' = http_calls w.
Proof.
  intros Hw Hout. cbn. destruct (phase w) eqn:Hph; try done.
  rewrite componentDidUpdate_armed
    by (cbn; by apply outstanding_armed).
  case_match; [|done]. unfold timer_calls, http_calls. cbn.
  rewrite !List.filter_app. cbn. by rewrite !app_nil_r.
Qed.

(** C4.  In every world the instance can reach there is at most one armed
    callback and at most one request in flight; and while a cycle is
    outstanding (a callback armed or a request in flight) no sequence of
    query-set-changed events arms a second callback or issues a second
    request. *)
Theorem single_flight_reachable (p : Props) (es : list Event) :
  let w := run (init p) es in
  ((length (timers w) ≤ 1)%nat ∧ (length (requests w) ≤ 1)%nat) ∧
  ∀ us : list (Props * Z),
    timers w ≠ [] ∨ requests w ≠ [] →
    let w' := run w (updates us) in
    timers w' = timers w ∧ requests w' = requests w ∧
    timer_calls w' = timer_calls w ∧ http_calls w' = http_calls w.
Proof.
  intros w. pose proof (reachable_single_flight p es) as Hw.
  fold w in Hw. clearbody w. split.
  - split; [|by apply sf_requests].
    destruct (sf_timers w Hw) as [->|(t & -> & _)]; cbn; lia.
  - intros us. revert w Hw.
    induction us as [|[p' now] us IH]; intros w Hw Hout; cbn; [done|].
    destruct (update_outstanding w p' now Hw Hout) as (Hts & Hrs & Htc & Hhc).
    cbn in Hts, Hrs, Htc, Hhc |- *.
    rewrite <-Hts, <-Hrs, <-Htc, <-Hhc.
    apply IH; [by apply (step_single_flight w (EvUpdate p' now))|].
    by rewrite Hts, Hrs.
Qed.

Lemma single_flight_reachable_witness :
  let p := mkProps false {[ "q1" := mkQuery "editor1" "running" 1000 ]} "editor1" 900 in
  let p' := mkProps false {[ "q1" := mkQuery "editor1" "running" 1000;
                             "q2" := mkQuery "editor1" "pending" 1600 ]} "editor1" 900 in
  let w := run (init p) [EvMount 1000; EvTimer 1 1500] in
  let w' := run w (updates [(p', 1600); (p, 1700)]) in
  timers w' = timers w ∧ requests w' = requests w ∧
  timer_calls w' = timer_calls w ∧ http_calls w' = http_calls w.
Proof.
  intros p p' w w'.
  apply (proj2 (single_flight_reachable p [EvMount 1000; EvTimer 1 1500])
               [(p', 1600); (p, 1700)]).
  right. vm_compute. discriminate.
Defined.

(** ** Idle when nothing is active *)

Lemma idle_init (p : Props) : idle (init p).
Proof. by split. Qed.

Lemma componentWillMount_props (now : Z) (w : World) :
  props (componentWillMount now w) = props w.
Proof.
  unfold componentWillMount. case_match; rewrite ?startTimer_props; done.
Qed.

Lemma componentDidUpdate_inactive (now : Z) (pp : Props) (w : World) :
  shouldCheckForQueries (props w) now = false →
  componentDidUpdate now pp w =
    if negb (bool_decide (offline pp = state_offline w))
    then call (SetUserOffline (state_offline w)) w else w.
Proof.
  intros Hq. unfold componentDidUpdate.
  destruct (negb _); cbn; by rewrite Hq.
Qed.

Lemma step_idle (w : World) (e : Event) :
  idle w →
  (∀ now, event_time e = Some now →
          shouldCheckForQueries (props (step w e)) now = false) →
  idle (step w e).
Proof.
  intros Hw Hq. pose proof Hw as [Hts Hrs Ht Htc Hhc].
  destruct e as [now|p now| |id now|id o now]; cbn in *.
  - specialize (Hq now eq_refl).
    destruct (phase w); [|done..]. cbn in Hq.
    rewrite componentWillMount_props in Hq.
    unfold componentWillMount. rewrite Hq. by split.
  - specialize (Hq now eq_refl).
    destruct (phase w); [done| |done].
    rewrite componentDidUpdate_props in Hq.
    rewrite componentDidUpdate_inactive by done.
    case_match; split; try done.
    + unfold timer_calls in *. cbn. rewrite List.filter_app, Htc. done.
    + unfold http_calls in *. cbn. rewrite List.filter_app, Hhc. done.
  - destruct (phase w); [done| |done].
    unfold componentWillUnmount, stopTimer. rewrite Ht. by split.
  - unfold find_timer. by rewrite Hts.
  - unfold find_request. by rewrite Hrs.
Qed.

Lemma run_idle (w : World) (es : list Event) :
  idle w → never_active w es = true → idle (run w es).
Proof.
  revert w. induction es as [|e es IH]; intros w Hw Hq; cbn in *; [done|].
  apply andb_true_iff in Hq as [Hq Hes].
  apply IH; [|done]. apply step_idle; [done|].
  intros now Hnow. rewrite Hnow in Hq. by apply negb_true_iff.
Qed.

(** C8.  In a run in which the polling decision is never positive, no
    request is ever issued and no timer is ever created. *)
Theorem idle_when_inactive (p : Props) (es : list Event) :
  never_active (init p) es = true →
  let w := run (init p) es in
  http_calls w = [] ∧ timer_calls w = [] ∧ timers w = [] ∧ requests w = [].
Proof.
  intros Hq w. destruct (run_idle (init p) es (idle_init p) Hq). done.
Qed.

Lemma idle_when_inactive_witness :
  let p := mkProps true {[ "q1" := mkQuery "editor1" "success" 1000;
                           "q2" := mkQuery "editor2" "running" 1000 ]} "editor1" 900 in
  let p' := mkProps true {[ "q1" := mkQuery "editor1" "running" 1000 ]} "editor1" 900 in
  let w := run (init p) [EvMount 2000; EvUpdate p' 21601000; EvTimer 1 21601500;
                         EvUpdate p 21602000; EvUnmount] in
  http_calls w = [] ∧ timer_calls w = [] ∧ timers w = [] ∧ requests w = [].
Proof.
  intros p p' w. apply (idle_when_inactive p). vm_compute. reflexivity.
Defined.

(** ** A callback that finds nothing active *)

Lemma setState_inactive (now : Z) (b : bool) (w : World) :
  shouldCheckForQueries (props w) now = false →
  timers (setState now b w) = timers w ∧
  timer (setState now b w) = timer w ∧
  timer_calls (setState now b w) = timer_calls w ∧
  http_calls (setState now b w) = http_calls w.
Proof.
  intros Hq. unfold setState. destruct (phase w); try done.
  case_bool_decide; [done|].
  rewrite componentDidUpdate_inactive by done.
  case_match; [|done]. unfold timer_calls, http_calls. cbn.
  rewrite !List.filter_app. cbn. by rewrite !app_nil_r.
Qed.

Lemma stopTimer_calls (w : World) :
  timer_calls (stopTimer w) = timer_calls w ∧
  http_calls (stopTimer w) = http_calls w.
Proof.
  unfold stopTimer, timer_calls, http_calls. destruct (timer w); [|done].
  cbn. rewrite !List.filter_app. cbn. by rewrite !app_nil_r.
Qed.

(** The [else] branch of [stopwatch], in any world of the instance. *)
Lemma fire_inactive (w : World) (id : nat) (now : Z) :
  single_flight w → is_Some (find_timer id w) →
  shouldCheckForQueries (props w) now = false →
  let w' := step w (EvTimer id now) in
  timer w' = None ∧ timers w' = [] ∧ requests w' = requests w ∧
  timer_calls w' = timer_calls w ∧ http_calls w' = http_calls w ∧
  (phase w = Mounted → state_offline w' = false).
Proof.
  intros Hw [t Hf] Hq. cbn. rewrite Hf.
  set (w0 := set_timers _ w).
  assert (single_flight w0) as Hw0.
  { destruct Hw as [Hts Hrs Hex Hh Hc].
    apply find_timer_Some in Hf as [Hin Hid].
    destruct Hts as [Hts|(t' & Hts & Ht)];
      [rewrite Hts in Hin; by apply elem_of_nil in Hin|].
    rewrite Hts in Hin. apply list_elem_of_singleton in Hin as ->.
    subst w0. rewrite Hts, (filter_other_timer t' id Hid).
    split; cbn; auto; done. }
  unfold stopwatch. change (props w0) with (props w). rewrite Hq.
  assert (shouldCheckForQueries (props (stopTimer w0)) now = false) as Hq'.
  { by rewrite stopTimer_props. }
  destruct (setState_inactive now false (stopTimer w0) Hq')
    as (-> & -> & -> & ->).
  destruct (stopTimer_calls w0) as [-> ->].
  rewrite setState_requests, stopTimer_requests, stopTimer_timers by done.
  split_and!; try done.
  intros Hph. apply setState_state_offline. by rewrite stopTimer_phase.
Qed.






(** ** Settlement *)

Lemma on_finally_reschedules (retry : Z) (w : World) :
  single_flight w →
  ∃ id, timers (on_finally retry w) = [mkTimer id QUERY_UPDATE_FREQ (retry + 1)] ∧
        timer (on_finally retry w) = Some id ∧
        requests (on_finally retry w) = requests w ∧
        props (on_finally retry w) = props w.
Proof.
  intros Hw. unfold on_finally, startTimer.
  change (timer (stopTimer w)) with (@None nat).
  exists (next_timer (stopTimer w)). cbn.
  rewrite (stopTimer_timers w Hw), stopTimer_requests, stopTimer_props. done.
Qed.

(** The [finally] handler arms the next callback whatever the outcome and
    whatever the polling decision would be. *)
Lemma settle_reschedules (w : World) (id : nat) (o : Outcome) (now : Z) (r : Request) :
  single_flight w → find_request id w = Some r →
  let w' := step w (EvSettle id o now) in
  ∃ t, timers w' = [t] ∧ timer w' = Some (timer_id t) ∧
       timer_retry_count t = retry_count r + 1 ∧
       timer_delay t = QUERY_UPDATE_FREQ ∧
       requests w' = [] ∧ props w' = props w.
Proof.
  intros Hw Hf. cbn. rewrite Hf.
  set (w0 := set_requests _ w).
  assert (single_flight w0 ∧ requests w0 = []) as [Hw0 Hr0].
  { destruct Hw as [Hts Hrs Hex Hh Hc].
    apply find_request_Some in Hf as [Hin Hid]. subst w0.
    destruct (requests w) as [|r' [|r'' rs]] eqn:Hr;
      [by apply elem_of_nil in Hin| |cbn in Hrs; lia].
    apply list_elem_of_singleton in Hin as ->.
    rewrite filter_cons_False by (by intros Hn; apply Hn).
    split; [|done]. split; cbn; auto; try done.
    intros Hph. apply Hc in Hph as [_ ?]. congruence. }
  unfold settle.
  destruct (handlers_single_flight now o w0 Hw0) as (Hw1 & Hr1 & _ & Hp1).
  cbn zeta in Hw1, Hr1, Hp1.
  destruct (on_finally_reschedules (retry_count r) _ Hw1)
    as (tid & Hts & Ht & Hrs & Hps).
  exists (mkTimer tid QUERY_UPDATE_FREQ (retry_count r + 1)).
  rewrite Hts, Ht, Hrs, Hps, Hr1, Hp1, Hr0. done.
Qed.

(** C2, as the code has it.  When a poll cycle settles, on success and on
    failure alike, the retry counter handed to the next callback is the
    counter of the settled cycle plus one. *)
Theorem retry_count_increments
    (p : Props) (es : list Event) (id : nat) (o : Outcome) (now : Z) (r : Request) :
  let w := run (init p) es in
  find_request id w = Some r →
  let w' := step w (EvSettle id o now) in
  map timer_retry_count (timers w') = [retry_count r + 1].
Proof.
  intros w Hf w'.
  destruct (settle_reschedules w id o now r (reachable_single_flight p es) Hf)
    as (t & Hts & _ & Hrc & _).
  subst w'. rewrite Hts. cbn. by rewrite Hrc.
Qed.

(** C7, as the code has it.  When a poll cycle settles, a new callback is
    armed whatever the outcome and whatever the polling decision is at
    that moment.  The decision is taken when that callback fires: if it is
    negative then, the handle is cleared, nothing stays armed and no
    request is issued. *)
Theorem settle_then_check
    (p : Props) (es : list Event) (id : nat) (o : Outcome) (now : Z) (r : Request) :
  let w := run (init p) es in
  find_request id w = Some r →
  let w' := step w (EvSettle id o now) in
  ∃ t, timers w' = [t] ∧ timer w' = Some (timer_id t) ∧ requests w' = [] ∧
       ∀ now', shouldCheckForQueries (props w') now' = false →
               let w'' := step w' (EvTimer (timer_id t) now') in
               timer w'' = None ∧ timers w'' = [] ∧ requests w'' = [] ∧
               timer_calls w'' = timer_calls w' ∧ http_calls w'' = http_calls w'.
Proof.
  intros w Hf w'. pose proof (reachable_single_flight p es) as Hw. fold w in Hw.
  destruct (settle_reschedules w id o now r Hw Hf)
    as (t & Hts & Ht & _ & _ & Hrs & _).
  fold w' in Hts, Ht, Hrs.
  exists t. split_and!; try done.
  intros now' Hq.
  assert (is_Some (find_timer (timer_id t) w')) as Hft.
  { unfold find_timer. rewrite Hts. cbn. rewrite bool_decide_eq_true_2; done. }
  pose proof (step_single_flight w (EvSettle id o now) Hw) as Hw'. fold w' in Hw'.
  destruct (fire_inactive w' (timer_id t) now' Hw' Hft Hq)
    as (Ht'' & Hts'' & Hrs'' & Htc'' & Hhc'' & _).
  cbn zeta. rewrite Hrs'', Hrs. done.
Qed.

(** C2 as stated fails: after the successful poll of scenario A the next
    callback carries retry count 1, not 0. *)
Lemma success_keeps_counting :
  let w := run (init (one_query false "running")) scenario_A in
  map timer_retry_count (timers w) = [1] ∧
  map timer_retry_count (timers w) ≠ [0] ∧
  state_offline w = false.
Proof. vm_compute. split_and!; [reflexivity | discriminate | reflexivity]. Qed.

Lemma retry_count_increments_witness :
  let w := run (init (one_query false "running")) [EvMount 1000; EvTimer 1 1500] in
  let w' := step w (EvSettle 1 (Resolved ∅) 1600) in
  map timer_retry_count (timers w') = [0 + 1].
Proof.
  intros w w'.
  apply (retry_count_increments (one_query false "running")
           [EvMount 1000; EvTimer 1 1500] 1 (Resolved ∅) 1600
           (mkRequest 1 (-4100) 10000 0)).
  reflexivity.
Defined.

(** C7 as stated fails: the query set stops being active while the request
    is in flight, the request resolves, and a callback is armed although
    the polling decision is negative at that moment. *)
Lemma settle_reschedules_inactive :
  let w := run (init (one_query false "running"))
               [EvMount 1000; EvTimer 1 1500;
                EvUpdate (one_query false "success") 1550;
                EvSettle 1 (Resolved finished) 1600] in
  shouldCheckForQueries (props w) 1600 = false ∧
  timers w = [mkTimer 2 500 1] ∧ timers w ≠ [].
Proof. vm_compute. split_and!; [reflexivity | reflexivity | discriminate]. Qed.

Lemma settle_then_check_witness :
  let w := run (init (one_query false "running"))
               [EvMount 1000; EvTimer 1 1500;
                EvUpdate (one_query false "success") 1550] in
  let w' := step w (EvSettle 1 (Resolved finished) 1600) in
  ∃ t, timers w' = [t] ∧ timer w' = Some (timer_id t) ∧ requests w' = [] ∧
       ∀ now', shouldCheckForQueries (props w') now' = false →
               let w'' := step w' (EvTimer (timer_id t) now') in
               timer w'' = None ∧ timers w'' = [] ∧ requests w'' = [] ∧
               timer_calls w'' = timer_calls w' ∧ http_calls w'' = http_calls w'.
Proof.
  intros w w'.
  apply (settle_then_check (one_query false "running")
           [EvMount 1000; EvTimer 1 1500;
            EvUpdate (one_query false "success") 1550]
           1 (Resolved finished) 1600 (mkRequest 1 (-4100) 10000 0)).
  reflexivity.
Defined.

(** ** Teardown *)

Lemma dead_step (w : World) (e : Event) :
  phase w = Unmounted → timers w = [] → requests w = [] → step w e = w.
Proof.
  intros Hph Hts Hrs. destruct e; cbn; rewrite ?Hph; try done.
  - unfold find_timer. by rewrite Hts.
  - unfold find_request. by rewrite Hrs.
Qed.

Lemma dead_run (w : World) (es : list Event) :
  phase w = Unmounted → timers w = [] → requests w = [] → run w es = w.
Proof.
  intros Hph Hts Hrs. induction es as [|e es IH]; cbn; [done|].
  by rewrite dead_step.
Qed.

(** C3 on the code.  A request is in flight when the instance is
    unmounted; it resolves later with a non-empty body, and
    [refreshQueries] is called although [componentWillUnmount] has
    returned. *)
Theorem late_response_refreshes :
  let w := run (init (one_query false "running"))
               [EvMount 1000; EvTimer 1 1500; EvUnmount] in
  let w' := step w (EvSettle 1 (Resolved finished) 1600) in
  phase w = Unmounted ∧ store_calls w = [] ∧
  store_calls w' = [RefreshQueries finished] ∧
  store_calls w' ≠ store_calls w.
Proof.
  vm_compute. split_and!; [reflexivity | reflexivity | reflexivity | discriminate].
Qed.

(** The same run, continued: the [finally] handler of the late response
    arms a callback on the unmounted instance, whose props no longer
    change; the callback issues a second request, and its response
    refreshes the store a second time. *)
Lemma unmounted_instance_keeps_polling :
  let w := run (init (one_query false "running"))
               [EvMount 1000; EvTimer 1 1500; EvUnmount;
                EvSettle 1 (Resolved finished) 1600;
                EvTimer 2 2100; EvSettle 2 (Resolved finished) 2200] in
  phase w = Unmounted ∧
  http_calls w = [Get (-4100) 10000; Get (-4100) 10000] ∧
  store_calls w = [RefreshQueries finished; RefreshQueries finished] ∧
  timers w = [mkTimer 3 500 2].
Proof. vm_compute. split_and!; reflexivity. Qed.

(** Unmounting a mounted instance clears the handle and disarms the
    pending callback, whether a request is in flight or not; when none is
    in flight at that moment, nothing happens afterwards, so no store
    action is dispatched. *)
Theorem unmount_without_request_is_final (p : Props) (es es' : list Event) :
  let w := run (init p) es in
  phase w = Mounted →
  let w' := step w EvUnmount in
  timer w' = None ∧ timers w' = [] ∧
  (requests w = [] →
   run w' es' = w' ∧ store_calls (run w' es') = store_calls w').
Proof.
  intros w Hph w'.
  pose proof (reachable_single_flight p es) as Hw. fold w in Hw.
  assert (w' = set_phase Unmounted (componentWillUnmount w)) as Hw'.
  { subst w'. cbn. by rewrite Hph. }
  assert (timers w' = []) as Hts.
  { rewrite Hw'. cbn. by apply stopTimer_timers. }
  split_and!; [by rewrite Hw'|done|].
  intros Hrs.
  assert (run w' es' = w') as Hrun.
  { apply dead_run; [by rewrite Hw'|done|].
    rewrite Hw'. cbn. unfold componentWillUnmount.
    by rewrite stopTimer_requests. }
  split; [done|by rewrite Hrun].
Qed.

Lemma unmount_without_request_is_final_witness :
  let w := run (init (one_query false "running")) scenario_A in
  let w' := step w EvUnmount in
  let es' := [EvTimer 2 2100; EvSettle 1 (Resolved finished) 2200;
              EvUpdate (one_query true "running") 2300] in
  timer w' = None ∧ timers w' = [] ∧
  run w' es' = w' ∧ store_calls (run w' es') = store_calls w'.
Proof.
  intros w w' es'.
  destruct (unmount_without_request_is_final (one_query false "running")
              scenario_A es' eq_refl) as (Ht & Hts & Hfinal).
  split_and!; [exact Ht | exact Hts | exact (proj1 (Hfinal eq_refl))
              | exact (proj2 (Hfinal eq_refl))].
Defined.

(** ** The offline flag and the store *)

Lemma startTimer_offline_dispatches (n : Z) (w : World) :
  offline_dispatches (startTimer n w) = offline_dispatches w.
Proof.
  unfold startTimer, offline_dispatches. destruct (timer w); [done|].
  cbn. rewrite <-app_assoc, omap_app. cbn. by rewrite app_nil_r.
Qed.

(** C9 as stated fails: the first timeout turns the flag on and
    [setUserOffline(true)] is dispatched; the store hands the new value
    back as a prop; in that update the flag has not changed, and
    [setUserOffline(true)] is dispatched a second time. *)
Lemma unchanged_flag_dispatched_again :
  let w1 := run (init (one_query false "running"))
                [EvMount 1000; EvTimer 1 1500; EvSettle 1 Rejected 11500] in
  let w2 := step w1 (EvUpdate (one_query true "running") 11510) in
  state_offline w1 = true ∧ offline_dispatches w1 = [true] ∧
  state_offline w2 = state_offline w1 ∧
  offline_dispatches w2 = [true; true] ∧
  offline_dispatches w2 ≠ offline_dispatches w1.
Proof.
  vm_compute.
  split_and!; [reflexivity | reflexivity | reflexivity | reflexivity | discriminate].
Qed.

(** C9, as the code has it.  An update step dispatches [setUserOffline]
    exactly when the [offline] of the previous props differs from
    [this.state.offline], once, with the value of the state; whether the
    state changed in that step plays no part. *)
Theorem setUserOffline_dispatch (now : Z) (prevProps : Props) (w : World) :
  offline_dispatches (componentDidUpdate now prevProps w) =
    offline_dispatches w ++
    (if bool_decide (offline prevProps = state_offline w)
     then [] else [state_offline w]).
Proof.
  unfold componentDidUpdate.
  set (w1 := if negb _ then _ else _).
  assert (offline_dispatches w1 =
          offline_dispatches w ++
          (if bool_decide (offline prevProps = state_offline w)
           then [] else [state_offline w])) as <-.
  { subst w1. case_bool_decide; cbn; [by rewrite app_nil_r|].
    unfold offline_dispatches. cbn. by rewrite omap_app. }
  case_match; [apply startTimer_offline_dispatches | done].
Qed.

(** ** The delay of the next poll *)

(** The local [delay] is the capped linear backoff. *)
Lemma startTimer_delay_spec (n : Z) :
  startTimer_delay n = Z.min (500 + 50 * n) 5000.
Proof. unfold startTimer_delay, QUERY_UPDATE_FREQ, QUERY_UPDATE_FREQ_MAX. lia. Qed.

(** Whatever the retry count, [startTimer] arms the callback with
    [QUERY_UPDATE_FREQ]. *)
Lemma startTimer_observed_delay (n : Z) (w : World) :
  timer w = None →
  observed_delays (startTimer n w) = observed_delays w ++ [500].
Proof.
  intros Ht. unfold startTimer, observed_delays. rewrite Ht. cbn.
  rewrite <-app_assoc, omap_app. done.
Qed.

(** C1 on the code.  In scenario B the retry counts handed to [startTimer]
    are 0, 1, 2 and 3 and the delays it computes are 500, 550, 600 and
    650, but every callback is armed with a delay of 500. *)
Theorem three_timeouts_delays :
  let w := run (init (one_query false "running")) scenario_B in
  calls_of_startTimer w = [(0, 500); (1, 550); (2, 600); (3, 650)] ∧
  observed_delays w = [500; 500; 500; 500] ∧
  state_offline w = true.
Proof. vm_compute. split_and!; reflexivity. Qed.

(** * Further properties of the component *)

(** ** The polling decision over time *)

(** For fixed props the decision can only turn negative as time passes. *)
Theorem shouldCheckForQueries_antitone (p : Props) (now now' : Z) :
  now ≤ now' →
  shouldCheckForQueries p now' = true → shouldCheckForQueries p now = true.
Proof.
  intros Hle. rewrite !shouldCheckForQueries_iff.
  intros (k & q & Hk & Hed & Hact). exists k, q. split_and!; [done..|].
  apply active_iff in Hact as [Hst Hage]. apply active_iff. split; [done|lia].
Qed.

Lemma shouldCheckForQueries_antitone_witness :
  shouldCheckForQueries (one_query false "running") 1000 = true.
Proof.
  apply (shouldCheckForQueries_antitone (one_query false "running") 1000 5000);
    [lia | reflexivity].
Defined.

(** Once every query of the editor is six hours old the decision is
    negative, whatever the states of the queries. *)
Theorem shouldCheckForQueries_age_ceiling (p : Props) (now : Z) :
  (∀ k q, queries p !! k = Some q → sqlEditorId q = queryEditorId p →
          startDttm q + MAX_QUERY_AGE_TO_POLL ≤ now) →
  shouldCheckForQueries p now = false.
Proof.
  intros Hold. apply shouldCheckForQueries_false_iff. intros k q Hk Hed.
  specialize (Hold k q Hk Hed). unfold active.
  apply andb_false_iff. right. apply Z.ltb_ge. lia.
Qed.

Lemma shouldCheckForQueries_age_ceiling_witness :
  shouldCheckForQueries (one_query false "running") 21601000 = false.
Proof.
  apply (shouldCheckForQueries_age_ceiling (one_query false "running") 21601000).
  intros k q Hk _. unfold one_query in Hk. cbn in Hk.
  apply lookup_singleton_Some in Hk as [_ <-]. cbn. unfold MAX_QUERY_AGE_TO_POLL. lia.
Defined.

(** ** Starting, polling and restarting *)

(** Mounting on an active query set arms the first callback, with retry
    count 0 and a delay of 500 ms, and makes no other call to the store or
    the server; mounting on an inactive one does nothing. *)
Theorem mount_starts_iff_active (p : Props) (now : Z) :
  let w := step (init p) (EvMount now) in
  phase w = Mounted ∧ state_offline w = offline p ∧
  store_calls w = [] ∧ http_calls w = [] ∧ requests w = [] ∧
  (if shouldCheckForQueries p now
   then timers w = [mkTimer 1 500 0] ∧ timer w = Some 1%nat
   else timers w = [] ∧ timer w = None).
Proof.
  cbn. unfold componentWillMount. cbn.
  destruct (shouldCheckForQueries p now); done.
Qed.

(** A callback that fires on a positive decision issues one request, to
    [/superset/queries/<queriesLastUpdate - 5000>] with a timeout of
    10000 ms; the request carries the retry count of the callback, the
    handle stays in [this.timer], and neither the store nor the offline
    flag is touched. *)
Theorem fire_active (p : Props) (es : list Event) (id : nat) (now : Z) (t : Timer) :
  let w := run (init p) es in
  find_timer id w = Some t →
  shouldCheckForQueries (props w) now = true →
  let w' := step w (EvTimer id now) in
  requests w' = [mkRequest (next_request w)
                           (queriesLastUpdate (props w) - 5000) 10000
                           (timer_retry_count t)] ∧
  http_calls w' = http_calls w ++ [Get (queriesLastUpdate (props w) - 5000) 10000] ∧
  timers w' = [] ∧ timer w' = Some id ∧
  store_calls w' = store_calls w ∧ state_offline w' = state_offline w.
Proof.
  intros w Hf Hq w'. subst w'. cbn. rewrite Hf.
  pose proof (reachable_single_flight p es) as [Hts Hrs Hex Hh Hc]. fold w in Hts, Hrs, Hex, Hh, Hc.
  apply find_timer_Some in Hf as [Hin Hid].
  destruct Hts as [Hts|(t' & Hts & Ht)];
    [rewrite Hts in Hin; by apply elem_of_nil in Hin|].
  rewrite Hts in Hin. apply list_elem_of_singleton in Hin as ->.
  assert (requests w = []) as Hr.
  { destruct (requests w); [done|]. rewrite Hex in Hts; done. }
  rewrite Hts, (filter_other_timer t' id Hid).
  unfold stopwatch. cbn. rewrite Hq. cbn. rewrite Hr, Ht, Hid.
  unfold http_calls, store_calls. cbn. rewrite !List.filter_app. cbn.
  by rewrite app_nil_r.
Qed.

Lemma fire_active_witness :
  let w := run (init (one_query false "running")) [EvMount 1000] in
  let w' := step w (EvTimer 1 1500) in
  requests w' = [mkRequest 1 (-4100) 10000 0] ∧
  http_calls w' = http_calls w ++ [Get (-4100) 10000] ∧
  timers w' = [] ∧ timer w' = Some 1%nat ∧
  store_calls w' = store_calls w ∧ state_offline w' = state_offline w.
Proof.
  intros w w'.
  apply (fire_active (one_query false "running") [EvMount 1000] 1 1500
                     (mkTimer 1 500 0)); reflexivity.
Defined.

(** Cycles are strictly sequential: in no world the instance can reach is
    a callback armed while a request is in flight. *)
Theorem timer_excludes_request (p : Props) (es : list Event) :
  let w := run (init p) es in
  timers w = [] ∨ requests w = [].
Proof.
  intros w. pose proof (reachable_single_flight p es) as Hw. fold w in Hw.
  destruct (requests w) eqn:Hr; [by right|].
  left. apply (sf_exclusive w Hw). by rewrite Hr.
Qed.

Lemma startTimer_handle_live (n : Z) (w : World) :
  handle_live w → handle_live (startTimer n w).
Proof.
  intros Hw. unfold startTimer. destruct (timer w) eqn:Ht; [done|].
  right. left. cbn. by destruct (timers w).
Qed.

Lemma componentDidUpdate_handle_live (now : Z) (pp : Props) (w : World) :
  handle_live w → handle_live (componentDidUpdate now pp w).
Proof.
  intros Hw. unfold componentDidUpdate.
  repeat case_match; try apply startTimer_handle_live; done.
Qed.

Lemma setState_handle_live (now : Z) (b : bool) (w : World) :
  handle_live w → handle_live (setState now b w).
Proof.
  intros Hw. unfold setState. repeat case_match; try done.
  by apply componentDidUpdate_handle_live.
Qed.

Lemma step_handle_live (w : World) (e : Event) :
  handle_live w → handle_live (step w e).
Proof.
  intros Hw. destruct e as [now|p now| |id now|id o now]; cbn.
  - destruct (phase w); [|done..]. unfold componentWillMount.
    case_match; [|done]. by apply (startTimer_handle_live 0 w).
  - destruct (phase w); [done| |done].
    by apply componentDidUpdate_handle_live.
  - destruct (phase w); [done| |done]. by left.
  - destruct (find_timer id w); [|done]. unfold stopwatch. case_match.
    + right. right. cbn. by destruct (requests w).
    + apply setState_handle_live. by left.
  - destruct (find_request id w); [|done]. unfold settle, on_finally.
    apply startTimer_handle_live. by left.
Qed.

Lemma reachable_handle_live (p : Props) (es : list Event) :
  handle_live (run (init p) es).
Proof.
  assert (∀ w, handle_live w → handle_live (run w es)) as Hrun.
  { induction es as [|e es IH]; intros w Hw; cbn; [done|].
    by apply IH, step_handle_live. }
  apply Hrun. by left.
Qed.

(** A mounted poller that has gone idle is never stuck: with no callback
    armed and no request in flight, a change of the query set to an active
    one arms one callback, with retry count 0. *)
Theorem update_restarts_from_idle
    (p : Props) (es : list Event) (newProps : Props) (now : Z) :
  let w := run (init p) es in
  phase w = Mounted → timers w = [] → requests w = [] →
  shouldCheckForQueries newProps now = true →
  let w' := step w (EvUpdate newProps now) in
  timers w' = [mkTimer (next_timer w) 500 0] ∧
  timer w' = Some (next_timer w) ∧ requests w' = [] ∧
  http_calls w' = http_calls w.
Proof.
  intros w Hph Hts Hrs Hq w'. subst w'.
  destruct (reachable_handle_live p es) as [Ht|[?|?]]; [|done..].
  fold w in Ht. cbn. rewrite Hph. unfold componentDidUpdate.
  set (w1 := if negb _ then _ else _).
  assert (props w1 = newProps ∧ timer w1 = None ∧ timers w1 = [] ∧
          requests w1 = [] ∧ next_timer w1 = next_timer w ∧
          http_calls w1 = http_calls w) as (Hp1 & Ht1 & Hts1 & Hrs1 & Hn1 & Hh1).
  { subst w1. case_match; cbn; split_and!; try done.
    unfold http_calls. cbn. rewrite List.filter_app. cbn. by rewrite app_nil_r. }
  rewrite Hp1, Hq. unfold startTimer. rewrite Ht1. cbn.
  rewrite Hts1, Hrs1, Hn1. split_and!; try done.
  unfold http_calls in *. cbn. rewrite <-app_assoc, List.filter_app. cbn.
  by rewrite app_nil_r.
Qed.

Lemma update_restarts_from_idle_witness :
  let p := one_query false "running" in
  let es := [EvMount 1000; EvTimer 1 1500;
             EvUpdate (one_query false "success") 1550;
             EvSettle 1 (Resolved finished) 1600; EvTimer 2 2100] in
  let w := run (init p) es in
  let w' := step w (EvUpdate (one_query false "pending") 3000) in
  timers w' = [mkTimer (next_timer w) 500 0] ∧
  timer w' = Some (next_timer w) ∧ requests w' = [] ∧
  http_calls w' = http_calls w.
Proof.
  intros p es w w'.
  apply (update_restarts_from_idle p es (one_query false "pending") 3000);
    reflexivity.
Defined.

(** ** What a settled request does *)

Lemma startTimer_calls (n : Z) (w : World) :
  calls (startTimer n w) = calls w ∨
  ∃ id, calls (startTimer n w) =
        calls w ++ [LogDelay n (startTimer_delay n); SetTimeout id QUERY_UPDATE_FREQ n].
Proof.
  unfold startTimer. destruct (timer w); [by left|].
  right. exists (next_timer w). cbn. by rewrite <-app_assoc.
Qed.

Lemma stopTimer_log (w : World) :
  calls (stopTimer w) = calls w ∨
  ∃ id, calls (stopTimer w) = calls w ++ [ClearTimeout id].
Proof. unfold stopTimer. destruct (timer w) as [id|]; [right; by exists id | by left]. Qed.

Lemma startTimer_refresh_payloads (n : Z) (w : World) :
  refresh_payloads (startTimer n w) = refresh_payloads w.
Proof.
  unfold refresh_payloads.
  destruct (startTimer_calls n w) as [->|(id & ->)]; [done|].
  rewrite omap_app. cbn. by rewrite app_nil_r.
Qed.

Lemma stopTimer_refresh_payloads (w : World) :
  refresh_payloads (stopTimer w) = refresh_payloads w.
Proof.
  unfold refresh_payloads.
  destruct (stopTimer_log w) as [->|(id & ->)]; [done|].
  rewrite omap_app. cbn. by rewrite app_nil_r.
Qed.

Lemma componentDidUpdate_refresh_payloads (now : Z) (pp : Props) (w : World) :
  refresh_payloads (componentDidUpdate now pp w) = refresh_payloads w.
Proof.
  unfold componentDidUpdate.
  set (w1 := if negb _ then _ else _).
  assert (refresh_payloads w1 = refresh_payloads w) as <-.
  { subst w1. case_match; [|done]. unfold refresh_payloads. cbn.
    rewrite omap_app. cbn. by rewrite app_nil_r. }
  case_match; [apply startTimer_refresh_payloads | done].
Qed.

Lemma setState_refresh_payloads (now : Z) (b : bool) (w : World) :
  refresh_payloads (setState now b w) = refresh_payloads w.
Proof.
  unfold setState. repeat case_match; try done.
  by rewrite componentDidUpdate_refresh_payloads.
Qed.

Lemma Object_keys_empty (json : gmap string Query) :
  (0 <? Z.of_nat (length (Object_keys json))) = bool_decide (json ≠ ∅).
Proof.
  unfold Object_keys. rewrite length_fmap.
  destruct (map_to_list json) as [|kv kvs] eqn:Hl; cbn.
  - apply map_to_list_empty_iff in Hl as ->.
    symmetry. apply bool_decide_eq_false. by intros Hn.
  - symmetry. apply bool_decide_eq_true. intros ->.
    by rewrite map_to_list_empty in Hl.
Qed.

(** [refreshQueries] is called in one place only: when a request in flight
    resolves with a non-empty object, once, with that object, whether the
    instance is still mounted or not.  An empty object, a rejected
    request and every other event leave the store's queries alone. *)
Theorem refreshQueries_only_on_response (w : World) (e : Event) :
  refresh_payloads (step w e) =
    refresh_payloads w ++
    match e with
    | EvSettle id (Resolved json) _ =>
        match find_request id w with
        | Some _ => if bool_decide (json ≠ ∅) then [json] else []
        | None => []
        end
    | _ => []
    end.
Proof.
  destruct e as [now|p now| |id now|id o now]; cbn; rewrite ?app_nil_r.
  - destruct (phase w); try done. unfold componentWillMount.
    case_match; [apply startTimer_refresh_payloads | done].
  - destruct (phase w); try done.
    by rewrite componentDidUpdate_refresh_payloads.
  - destruct (phase w); try done. apply stopTimer_refresh_payloads.
  - destruct (find_timer id w); [|done]. unfold stopwatch. case_match.
    + unfold refresh_payloads. cbn. rewrite omap_app. cbn. by rewrite app_nil_r.
    + by rewrite setState_refresh_payloads, stopTimer_refresh_payloads.
  - destruct (find_request id w) as [r|]; [|by destruct o; rewrite ?app_nil_r].
    unfold settle, on_finally.
    rewrite startTimer_refresh_payloads, stopTimer_refresh_payloads.
    destruct o as [json|]; unfold on_then, on_catch;
      rewrite setState_refresh_payloads; [|by rewrite app_nil_r].
    rewrite Object_keys_empty. case_bool_decide; [|by rewrite app_nil_r].
    unfold refresh_payloads. cbn. by rewrite omap_app.
Qed.

Lemma on_finally_state_offline (retry : Z) (w : World) :
  state_offline (on_finally retry w) = state_offline w.
Proof.
  unfold on_finally. by rewrite startTimer_state_offline, stopTimer_state_offline.
Qed.

(** On a mounted instance the offline flag records the outcome of the last
    request: true after a network error or a timeout, false after a
    response, empty or not. *)
Theorem offline_tracks_outcome (w : World) (id : nat) (o : Outcome) (now : Z) :
  phase w = Mounted → is_Some (find_request id w) →
  state_offline (step w (EvSettle id o now)) =
    match o with Rejected => true | Resolved _ => false end.
Proof.
  intros Hph [r Hf]. cbn. rewrite Hf. unfold settle.
  rewrite on_finally_state_offline.
  destruct o as [json|]; unfold on_then, on_catch;
    apply setState_state_offline; [|done].
  by case_match.
Qed.

Lemma offline_tracks_outcome_witness :
  let w := run (init (one_query false "running")) [EvMount 1000; EvTimer 1 1500] in
  state_offline (step w (EvSettle 1 Rejected 11500)) = true.
Proof.
  intros w.
  apply (offline_tracks_outcome w 1 Rejected 11500);
    [reflexivity | by eexists].
Defined.

(** ** After unmount *)

Lemma step_unmounted (w : World) (e : Event) :
  phase w = Unmounted →
  phase (step w e) = Unmounted ∧
  state_offline (step w e) = state_offline w ∧
  props (step w e) = props w ∧
  offline_dispatches (step w e) = offline_dispatches w.
Proof.
  intros Hph.
  assert (∀ now b w0, phase w0 = Unmounted → setState now b w0 = w0) as Hset.
  { intros now b w0 Hw0. unfold setState. by rewrite Hw0. }
  assert (∀ w0, offline_dispatches (stopTimer w0) = offline_dispatches w0) as Hstop.
  { intros w0. unfold offline_dispatches.
    destruct (stopTimer_log w0) as [->|(i & ->)]; [done|].
    rewrite omap_app. cbn. by rewrite app_nil_r. }
  destruct e as [now|p now| |id now|id o now]; cbn; rewrite ?Hph; try done.
  - destruct (find_timer id w); [|done]. unfold stopwatch. case_match.
    { split_and!; try done. unfold offline_dispatches. cbn.
      rewrite omap_app. cbn. by rewrite app_nil_r. }
    rewrite Hset by (by rewrite stopTimer_phase).
    by rewrite stopTimer_phase, stopTimer_state_offline, stopTimer_props, Hstop.
  - destruct (find_request id w) as [r|]; [|done]. unfold settle, on_finally.
    rewrite startTimer_phase, startTimer_state_offline, startTimer_props,
      startTimer_offline_dispatches.
    rewrite stopTimer_phase, stopTimer_state_offline, stopTimer_props, Hstop.
    destruct o as [json|]; unfold on_then, on_catch.
    + rewrite Hset by (by case_match). case_match; [|done].
      split_and!; try done. unfold offline_dispatches. cbn.
      rewrite omap_app. cbn. by rewrite app_nil_r.
    + by rewrite Hset.
Qed.

(** Once the instance is unmounted it stays so, its offline flag and its
    props never change again, and [setUserOffline] is never dispatched
    again, whatever timers and responses arrive later. *)
Theorem no_offline_dispatch_after_unmount (w : World) (es : list Event) :
  phase w = Unmounted →
  phase (run w es) = Unmounted ∧
  state_offline (run w es) = state_offline w ∧
  props (run w es) = props w ∧
  offline_dispatches (run w es) = offline_dispatches w.
Proof.
  revert w. induction es as [|e es IH]; intros w Hph; cbn; [done|].
  destruct (step_unmounted w e Hph) as (Hph' & <- & <- & <-). by apply IH.
Qed.

Lemma no_offline_dispatch_after_unmount_witness :
  let w := run (init (one_query false "running"))
               [EvMount 1000; EvTimer 1 1500; EvUnmount] in
  let es := [EvSettle 1 Rejected 11500; EvTimer 2 12000;
             EvSettle 2 (Resolved finished) 12100;
             EvUpdate (one_query true "running") 12200] in
  phase (run w es) = Unmounted ∧
  state_offline (run w es) = state_offline w ∧
  props (run w es) = props w ∧
  offline_dispatches (run w es) = offline_dispatches w.
Proof.
  intros w es. apply (no_offline_dispatch_after_unmount w es). reflexivity.
Defined.

(** ** Accounting *)

#[global] Arguments http_calls : simpl never.
#[global] Arguments timer_calls : simpl never.
#[global] Arguments refresh_payloads : simpl never.

Ltac count_calls :=
  unfold refreshes_accounted, requests_accounted, http_calls, timer_calls in *;
  cbn in *; lia.

Lemma timer_only_refl (w : World) : timer_only w w.
Proof. by split. Qed.

Lemma timer_only_trans (w1 w2 w3 : World) :
  timer_only w1 w2 → timer_only w2 w3 → timer_only w1 w3.
Proof.
  intros [Hh1 Hr1 Hp1 Ha1] [Hh2 Hr2 Hp2 Ha2].
  split; [congruence..|auto].
Qed.

Lemma call_timer_only (b : bool) (w : World) :
  timer_only w (call (SetUserOffline b) w).
Proof.
  split; try done; unfold requests_accounted, http_calls, timer_calls,
    refresh_payloads; cbn; rewrite ?List.filter_app, ?omap_app; cbn;
    by rewrite ?app_nil_r.
Qed.

Lemma startTimer_timer_only (n : Z) (w : World) :
  timer_only w (startTimer n w).
Proof.
  split; [| apply startTimer_requests | apply startTimer_refresh_payloads |].
  - unfold http_calls. destruct (startTimer_calls n w) as [->|(id & ->)]; [done|].
    rewrite List.filter_app. cbn. by rewrite app_nil_r.
  - unfold startTimer, requests_accounted, http_calls, timer_calls.
    destruct (timer w); [done|]. cbn.
    rewrite <-!app_assoc, !List.filter_app, !length_app. cbn. lia.
Qed.

Lemma stopTimer_timer_only (w : World) : timer_only w (stopTimer w).
Proof.
  destruct (stopTimer_calls w) as [Htc Hhc].
  split; [done | apply stopTimer_requests | apply stopTimer_refresh_payloads |].
  unfold requests_accounted. rewrite Htc, Hhc.
  assert (length (timers (stopTimer w)) ≤ length (timers w))%nat; [|lia].
  unfold stopTimer. destruct (timer w); [|done]. cbn. apply length_filter.
Qed.

Lemma componentDidUpdate_timer_only (now : Z) (pp : Props) (w : World) :
  timer_only w (componentDidUpdate now pp w).
Proof.
  unfold componentDidUpdate.
  repeat case_match;
    eauto using timer_only_trans, timer_only_refl, call_timer_only,
      startTimer_timer_only.
Qed.

Lemma set_state_offline_timer_only (b : bool) (w : World) :
  timer_only w (set_state_offline b w).
Proof. by split. Qed.

Lemma setState_timer_only (now : Z) (b : bool) (w : World) :
  timer_only w (setState now b w).
Proof.
  unfold setState. repeat case_match; try apply timer_only_refl.
  eapply timer_only_trans;
    [apply set_state_offline_timer_only | apply componentDidUpdate_timer_only].
Qed.

Lemma find_timer_shrinks (id : nat) (w : World) (t : Timer) :
  find_timer id w = Some t →
  (length (filter (λ t', timer_id t' ≠ id) (timers w)) < length (timers w))%nat.
Proof.
  intros Hf. apply find_timer_Some in Hf as [Hin Hid].
  apply (length_filter_lt _ _ t); [done|]. by intros Hn.
Qed.

Lemma find_request_shrinks (id : nat) (w : World) (r : Request) :
  find_request id w = Some r →
  (length (filter (λ r', request_id r' ≠ id) (requests w)) < length (requests w))%nat.
Proof.
  intros Hf. apply find_request_Some in Hf as [Hin Hid].
  apply (length_filter_lt _ _ r); [done|]. by intros Hn.
Qed.

Lemma handlers_timer_only (now : Z) (o : Outcome) (w : World) :
  http_calls (match o with
              | Resolved json => on_then now json w
              | Rejected => on_catch now w
              end) = http_calls w ∧
  requests (match o with
            | Resolved json => on_then now json w
            | Rejected => on_catch now w
            end) = requests w ∧
  (requests_accounted w →
   requests_accounted (match o with
                       | Resolved json => on_then now json w
                       | Rejected => on_catch now w
                       end)).
Proof.
  destruct o as [json|]; unfold on_then, on_catch.
  - set (w1 := if _ <? _ then _ else _).
    assert (http_calls w1 = http_calls w ∧ requests w1 = requests w ∧
            (requests_accounted w → requests_accounted w1)) as (Hh & Hr & Ha).
    { subst w1. case_match; [|done].
      unfold requests_accounted, http_calls, timer_calls. cbn.
      rewrite !List.filter_app. cbn. by rewrite !app_nil_r. }
    destruct (setState_timer_only now false w1) as [Hh' Hr' _ Ha'].
    split_and!; [congruence..|auto].
  - destruct (setState_timer_only now true w) as [Hh' Hr' _ Ha'].
    split_and!; auto.
Qed.

Lemma step_requests_accounted (w : World) (e : Event) :
  requests_accounted w → requests_accounted (step w e).
Proof.
  intros Hw. destruct e as [now|p now| |id now|id o now]; cbn.
  - destruct (phase w); [|done..]. unfold componentWillMount.
    case_match; [|done]. by apply (to_accounted _ _ (startTimer_timer_only 0 w)).
  - destruct (phase w); [done| |done].
    by apply (to_accounted _ _ (componentDidUpdate_timer_only now (props w) _)).
  - destruct (phase w); [done| |done].
    by apply (to_accounted _ _ (stopTimer_timer_only w)).
  - destruct (find_timer id w) as [t|] eqn:Hf; [|done].
    pose proof (find_timer_shrinks id w t Hf) as Hlt.
    set (ts := filter _ (timers w)) in *. clearbody ts.
    set (w0 := set_timers ts w).
    assert (length (http_calls w0) + S (length (timers w0))
            ≤ length (timer_calls w0))%nat as Hw0.
    { subst w0. unfold requests_accounted, http_calls, timer_calls in *.
      cbn. lia. }
    unfold stopwatch. case_match.
    + unfold requests_accounted, http_calls, timer_calls in *. cbn.
      rewrite !List.filter_app, !length_app. cbn. lia.
    + apply (to_accounted _ _ (setState_timer_only now false _)).
      apply (to_accounted _ _ (stopTimer_timer_only w0)).
      unfold requests_accounted. lia.
  - destruct (find_request id w) as [r|]; [|done]. unfold settle, on_finally.
    apply (to_accounted _ _ (startTimer_timer_only _ _)).
    apply (to_accounted _ _ (stopTimer_timer_only _)).
    by apply handlers_timer_only.
Qed.

Lemma step_refreshes_accounted (w : World) (e : Event) :
  refreshes_accounted w → refreshes_accounted (step w e).
Proof.
  intros Hw. unfold refreshes_accounted.
  rewrite refreshQueries_only_on_response, length_app.
  destruct e as [now|p now| |id now|id o now]; cbn.
  - destruct (phase w); [|count_calls..].
    unfold componentWillMount. case_match; [|count_calls].
    change (http_calls (set_phase Mounted ?x)) with (http_calls x).
    change (requests (set_phase Mounted ?x)) with (requests x).
    destruct (startTimer_timer_only 0 w) as [-> -> _ _]. count_calls.
  - destruct (phase w); [count_calls| |count_calls].
    destruct (componentDidUpdate_timer_only now (props w) (set_props p w))
      as [-> -> _ _].
    count_calls.
  - destruct (phase w); [count_calls| |count_calls].
    unfold componentWillUnmount.
    change (http_calls (set_phase Unmounted ?x)) with (http_calls x).
    change (requests (set_phase Unmounted ?x)) with (requests x).
    destruct (stopTimer_timer_only w) as [-> -> _ _]. count_calls.
  - destruct (find_timer id w) as [t|]; [|count_calls].
    set (ts := filter _ (timers w)). clearbody ts.
    set (w0 := set_timers ts w). unfold stopwatch. case_match.
    + unfold refreshes_accounted, http_calls in *. cbn.
      rewrite !List.filter_app, !length_app. cbn. lia.
    + destruct (setState_timer_only now false (stopTimer w0)) as [-> -> _ _].
      destruct (stopTimer_timer_only w0) as [-> -> _ _].
      subst w0. count_calls.
  - destruct (find_request id w) as [r|] eqn:Hf;
      [|destruct o; count_calls].
    pose proof (find_request_shrinks id w r Hf) as Hlt.
    set (rs := filter _ (requests w)) in *. clearbody rs.
    set (w0 := set_requests rs w) in *.
    unfold settle, on_finally.
    destruct (startTimer_timer_only (retry_count r + 1)
                (stopTimer (match o with
                            | Resolved json => on_then now json w0
                            | Rejected => on_catch now w0
                            end))) as [-> -> _ _].
    destruct (stopTimer_timer_only (match o with
                            | Resolved json => on_then now json w0
                            | Rejected => on_catch now w0
                            end)) as [-> -> _ _].
    destruct (handlers_timer_only now o w0) as (-> & -> & _).
    subst w0. destruct o as [json|]; [case_bool_decide|]; count_calls.
Qed.

(** Every request is issued by a callback of its own: in every world the
    instance can reach, the requests issued so far and the callbacks still
    armed together number at most the timers created so far. *)
Theorem requests_come_from_timers (p : Props) (es : list Event) :
  let w := run (init p) es in
  (length (http_calls w) + length (timers w) ≤ length (timer_calls w))%nat.
Proof.
  assert (∀ w, requests_accounted w → requests_accounted (run w es)) as Hrun.
  { induction es as [|e es IH]; intros w Hw; cbn; [done|].
    by apply IH, step_requests_accounted. }
  apply (Hrun (init p)). unfold requests_accounted. by vm_compute.
Qed.

(** The store is refreshed at most once per request: in every world the
    instance can reach, the [refreshQueries] calls made so far and the
    requests still in flight together number at most the requests issued
    so far. *)
Theorem refreshes_come_from_requests (p : Props) (es : list Event) :
  let w := run (init p) es in
  (length (refresh_payloads w) + length (requests w) ≤ length (http_calls w))%nat.
Proof.
  assert (∀ w, refreshes_accounted w → refreshes_accounted (run w es)) as Hrun.
  { induction es as [|e es IH]; intros w Hw; cbn; [done|].
    by apply IH, step_refreshes_accounted. }
  apply (Hrun (init p)). unfold refreshes_accounted. by vm_compute.
Qed.

(** ** The shape of the calls *)

Lemma Forall_filter_keep {A} (P Q : A → Prop) `{!∀ x, Decision (Q x)} (l : list A) :
  Forall P l → Forall P (filter Q l).
Proof.
  rewrite !Forall_forall. intros Hl x Hx.
  apply list_elem_of_filter in Hx as [_ Hx]. by apply Hl.
Qed.

Lemma call_well_formed (c : Call) (w : World) :
  well_formed_call c → well_formed w → well_formed (call c w).
Proof.
  intros Hc [Hcs Hn]. split; [|done]. cbn. apply Forall_app. split; [done|].
  by apply Forall_singleton.
Qed.

Lemma startTimer_well_formed (n : Z) (w : World) :
  0 ≤ n → well_formed w → well_formed (startTimer n w).
Proof.
  intros Hn [Hcs [Hts Hrs]]. unfold startTimer. destruct (timer w); [done|].
  split; [|split]; cbn.
  - rewrite <-app_assoc. apply Forall_app. split; [done|].
    repeat constructor; done.
  - apply Forall_app. split; [done|]. by apply Forall_singleton.
  - done.
Qed.

Lemma stopTimer_well_formed (w : World) :
  well_formed w → well_formed (stopTimer w).
Proof.
  intros [Hcs [Hts Hrs]]. unfold stopTimer. destruct (timer w); [|done].
  split; [|split]; cbn.
  - apply Forall_app. split; [done|]. by apply Forall_singleton.
  - by apply Forall_filter_keep.
  - done.
Qed.

Lemma componentDidUpdate_well_formed (now : Z) (pp : Props) (w : World) :
  well_formed w → well_formed (componentDidUpdate now pp w).
Proof.
  intros Hw. unfold componentDidUpdate.
  repeat case_match;
    try apply startTimer_well_formed; try apply call_well_formed; done.
Qed.

Lemma setState_well_formed (now : Z) (b : bool) (w : World) :
  well_formed w → well_formed (setState now b w).
Proof.
  intros Hw. unfold setState. repeat case_match; try done.
  by apply componentDidUpdate_well_formed.
Qed.

Lemma step_well_formed (w : World) (e : Event) :
  well_formed w → well_formed (step w e).
Proof.
  intros Hw. destruct e as [now|p now| |id now|id o now]; cbn.
  - destruct (phase w); [|done..]. unfold componentWillMount.
    case_match; [|done]. by apply (startTimer_well_formed 0 w).
  - destruct (phase w); [done| |done].
    by apply componentDidUpdate_well_formed.
  - destruct (phase w); [done| |done].
    by apply (stopTimer_well_formed w).
  - destruct (find_timer id w) as [t|] eqn:Hf; [|done].
    apply find_timer_Some in Hf as [Hin _].
    destruct Hw as [Hcs [Hts Hrs]].
    assert (0 ≤ timer_retry_count t) as Ht.
    { by apply (proj1 (Forall_forall _ _) Hts t). }
    assert (well_formed (set_timers (filter (λ t', timer_id t' ≠ id) (timers w)) w))
      as Hw0.
    { split; [done|]. split; [|done]. by apply Forall_filter_keep. }
    unfold stopwatch. case_match.
    + destruct Hw0 as [Hcs0 [Hts0 Hrs0]]. split; [|split]; cbn.
      * apply Forall_app. split; [done|]. by apply Forall_singleton.
      * done.
      * apply Forall_app. split; [done|]. by apply Forall_singleton.
    + by apply setState_well_formed, stopTimer_well_formed.
  - destruct (find_request id w) as [r|] eqn:Hf; [|done].
    apply find_request_Some in Hf as [Hin _].
    destruct Hw as [Hcs [Hts Hrs]].
    assert (0 ≤ retry_count r) as Hr.
    { by apply (proj1 (Forall_forall _ _) Hrs r). }
    assert (well_formed (set_requests (filter (λ r', request_id r' ≠ id) (requests w)) w))
      as Hw0.
    { split; [done|]. split; [done|]. by apply Forall_filter_keep. }
    unfold settle, on_finally.
    apply startTimer_well_formed; [lia|]. apply stopTimer_well_formed.
    destruct o as [json|]; unfold on_then, on_catch;
      apply setState_well_formed; [|done].
    case_match; [|done]. by apply call_well_formed.
Qed.

Lemma reachable_well_formed (p : Props) (es : list Event) :
  well_formed (run (init p) es).
Proof.
  assert (∀ w, well_formed w → well_formed (run w es)) as Hrun.
  { induction es as [|e es IH]; intros w Hw; cbn; [done|].
    by apply IH, step_well_formed. }
  apply Hrun. split; [|split]; by constructor.
Qed.

(** In every run, each callback is armed with a delay of 500 ms and each
    request is made with a timeout of 10000 ms. *)
Theorem calls_have_fixed_timing (p : Props) (es : list Event) (c : Call) :
  c ∈ calls (run (init p) es) →
  match c with
  | SetTimeout _ delay _ => delay = 500
  | Get _ timeout_ => timeout_ = 10000
  | _ => True
  end.
Proof.
  intros Hin. destruct (reachable_well_formed p es) as [Hcs _].
  pose proof (proj1 (Forall_forall _ _) Hcs c Hin) as Hc.
  destruct c; cbn in *; try done. by destruct Hc.
Qed.

Lemma calls_have_fixed_timing_witness :
  match SetTimeout 4 500 3 with
  | SetTimeout _ delay _ => delay = 500
  | Get _ timeout_ => timeout_ = 10000
  | _ => True
  end.
Proof.
  apply (calls_have_fixed_timing (one_query false "running") scenario_B
           (SetTimeout 4 500 3)).
  vm_compute. apply list_elem_of_In. cbn. tauto.
Defined.

(** In every run, the retry count that [startTimer] receives is never
    negative, and the delay it computes from it is the capped backoff,
    between 500 and 5000 ms. *)
Theorem logged_delays_bounded (p : Props) (es : list Event) (n d : Z) :
  (n, d) ∈ calls_of_startTimer (run (init p) es) →
  0 ≤ n ∧ d = Z.min (500 + 50 * n) 5000 ∧ 500 ≤ d ≤ 5000.
Proof.
  intros Hin. unfold calls_of_startTimer in Hin.
  apply list_elem_of_omap in Hin as (c & Hc & Heq).
  destruct (reachable_well_formed p es) as [Hcs _].
  pose proof (proj1 (Forall_forall _ _) Hcs c Hc) as Hwf.
  destruct c; try done. injection Heq as -> ->. cbn in Hwf.
  destruct Hwf as [Hn ->]. rewrite startTimer_delay_spec. lia.
Qed.

Lemma logged_delays_bounded_witness :
  0 ≤ 3 ∧ 650 = Z.min (500 + 50 * 3) 5000 ∧ 500 ≤ 650 ≤ 5000.
Proof.
  apply (logged_delays_bounded (one_query false "running") scenario_B 3 650).
  vm_compute. apply list_elem_of_In. cbn. tauto.
Defined.

(** ** What ends polling *)

Lemma startTimer_outstanding (n : Z) (w : World) :
  outstanding w → outstanding (startTimer n w).
Proof.
  intros [Hts|Hrs]; unfold startTimer; destruct (timer w);
    [by left | left | by right | by right].
  cbn. by destruct (timers w).
Qed.

Lemma componentDidUpdate_outstanding (now : Z) (pp : Props) (w : World) :
  outstanding w → outstanding (componentDidUpdate now pp w).
Proof.
  intros Hw. unfold componentDidUpdate.
  repeat case_match; try apply startTimer_outstanding; done.
Qed.

(** Only unmounting, or a callback that finds no active query, ends
    polling: after any other event, a failed or timed-out request
    included, a callback is armed or a request is in flight. *)
Theorem polling_continues (w : World) (e : Event) :
  outstanding w → e ≠ EvUnmount →
  (∀ id now, e = EvTimer id now → shouldCheckForQueries (props w) now = true) →
  outstanding (step w e).
Proof.
  intros Hw Hne Hq. destruct e as [now|p now| |id now|id o now]; cbn; [| |done| |].
  - destruct (phase w); [|done..]. unfold componentWillMount.
    case_match; [|done]. by apply (startTimer_outstanding 0 w).
  - destruct (phase w); [done| |done].
    by apply componentDidUpdate_outstanding.
  - destruct (find_timer id w); [|done]. unfold stopwatch. cbn.
    rewrite (Hq id now eq_refl). right. cbn. by destruct (requests w).
  - destruct (find_request id w); [|done]. unfold settle, on_finally, startTimer.
    change (timer (stopTimer ?x)) with (@None nat). left. cbn.
    by match goal with |- ?l ++ _ ≠ [] => destruct l end.
Qed.

Lemma polling_continues_witness :
  let w := run (init (one_query false "running")) [EvMount 1000; EvTimer 1 1500] in
  outstanding (step w (EvSettle 1 Rejected 11500)).
Proof.
  intros w. apply (polling_continues w (EvSettle 1 Rejected 11500)).
  - right. vm_compute. discriminate.
  - discriminate.
  - intros id now Heq. discriminate.
Defined.
